(** * Golang-Question: the [errorx] error value and the [config] holder

    A shallow embedding of the two Go packages of the repository
    ([errorx], [config]) and of the demonstration program ([main.go]),
    followed by the properties of the specification that were checked
    against it.

    Layout:
    - [golang]: the fragment of Go values the generic holder is instantiated
      at, and the result type of a call that may panic;
    - [reflect]: the three functions of Go's [reflect] package that
      [isZeroValue] calls, on that fragment;
    - [errorx]: the error value;
    - [sync]: the reader/writer mutex as seen by one goroutine;
    - [config]: the holder, over a store of holders addressed by pointers;
    - the theorems. *)

From Stdlib Require Import ZArith List.
From stdpp Require Import base option strings list gmap.

Set Warnings "-register-all".
Local Open Scope Z_scope.

(** ** Go values *)

Module golang.

(** The types the holder's parameter [T] ranges over here: booleans, [int],
    strings, structs, slices, function values and the empty interface.
    Pointers, maps, channels, arrays and floating point numbers are left
    out. *)
Inductive GoType : Type :=
| TBool
| TInt
| TString
| TStruct (fields : list GoType)
| TSlice (elem : GoType)
| TFunc
| TInterface.

(** A slice and a function value may be nil; an interface value is nil or a
    dynamic type together with a value of that type. *)
Inductive Value : Type :=
| VBool (b : bool)
| VInt (n : Z)
| VString (s : string)
| VStruct (fields : list Value)
| VSlice (elems : option (list Value))
| VFunc (closure : option positive)
| VInterface (dyn : option (GoType * Value)).

(** [any]: the empty interface as a Go value of its own. *)
Definition any : Type := option (GoType * Value).

Definition is_interface (T : GoType) : bool :=
  match T with TInterface => true | _ => false end.

Fixpoint GoType_eqb (a b : GoType) {struct a} : bool :=
  match a, b with
  | TBool, TBool | TInt, TInt | TString, TString
  | TFunc, TFunc | TInterface, TInterface => true
  | TStruct fa, TStruct fb =>
      (fix fields (xs ys : list GoType) {struct xs} : bool :=
         match xs, ys with
         | [], [] => true
         | x :: xs', y :: ys' => GoType_eqb x y && fields xs' ys'
         | _, _ => false
         end) fa fb
  | TSlice ea, TSlice eb => GoType_eqb ea eb
  | _, _ => false
  end.

(** The zero value of a type: what a declared and unassigned variable
    holds. *)
Fixpoint zero (T : GoType) : Value :=
  match T with
  | TBool => VBool false
  | TInt => VInt 0
  | TString => VString ""%string
  | TStruct fields => VStruct (map zero fields)
  | TSlice _ => VSlice None
  | TFunc => VFunc None
  | TInterface => VInterface None
  end.

(** [int] is 64 bits wide. *)
Definition int_range (n : Z) : bool :=
  (- 2 ^ 63 <=? n) && (n <? 2 ^ 63).

(** [has_type v T]: [v] is a value a variable of static type [T] can hold.
    The dynamic type of an interface value is never an interface type. *)
Fixpoint has_type (v : Value) (T : GoType) {struct v} : bool :=
  match v, T with
  | VBool _, TBool => true
  | VInt n, TInt => int_range n
  | VString _, TString => true
  | VStruct vs, TStruct ts =>
      (fix fields (xs : list Value) (ys : list GoType) {struct xs} : bool :=
         match xs, ys with
         | [], [] => true
         | x :: xs', y :: ys' => has_type x y && fields xs' ys'
         | _, _ => false
         end) vs ts
  | VSlice None, TSlice _ => true
  | VSlice (Some elems), TSlice e =>
      (fix all (xs : list Value) : bool :=
         match xs with
         | [] => true
         | x :: xs' => has_type x e && all xs'
         end) elems
  | VFunc _, TFunc => true
  | VInterface None, TInterface => true
  | VInterface (Some (D, x)), TInterface => negb (is_interface D) && has_type x D
  | _, _ => false
  end.

(** Passing a value of static type [T] where [any] is expected: a value of
    a concrete type is boxed with its type, an interface value keeps its
    dynamic type and value, and a nil interface stays nil. *)
Definition to_any (T : GoType) (v : Value) : any :=
  match T, v with
  | TInterface, VInterface dyn => dyn
  | _, _ => Some (T, v)
  end.

(** The result of a call that either returns or panics. *)
Inductive result (A : Type) : Type :=
| Ok (a : A)
| Panics (msg : string).
Global Arguments Ok {A} a.
Global Arguments Panics {A} msg.

End golang.

(** ** The functions of [reflect] used by [config] *)

Module reflect.
Import golang.

(** A [reflect.Value]: a value together with its type. *)
Definition rvalue : Type := GoType * Value.

(** [reflect.TypeOf(i any)]: the dynamic type of [i], nil for a nil
    interface. *)
Definition TypeOf (i : any) : option GoType :=
  match i with
  | Some (D, _) => Some D
  | None => None
  end.

(** [reflect.Zero(typ)]: panics on the nil type. *)
Definition Zero (typ : option GoType) : result rvalue :=
  match typ with
  | Some D => Ok (D, zero D)
  | None => Panics "reflect: Zero(nil)"
  end.

(** [Value.Interface()]. *)
Definition Interface (rv : rvalue) : any := to_any (fst rv) (snd rv).

(** [deepValueEqual] on two values of one type, kind by kind: a slice
    compares nil-ness, length and elements; an interface compares nil-ness,
    then the dynamic types, then the elements; a struct compares its fields;
    two function values are equal only when both are nil; the other kinds use
    [==]. *)
Fixpoint deepValueEqual (v1 v2 : Value) {struct v1} : bool :=
  match v1, v2 with
  | VBool a, VBool b => Bool.eqb a b
  | VInt a, VInt b => a =? b
  | VString a, VString b => String.eqb a b
  | VStruct f1, VStruct f2 =>
      (fix fields (xs ys : list Value) {struct xs} : bool :=
         match xs, ys with
         | [], [] => true
         | x :: xs', y :: ys' => deepValueEqual x y && fields xs' ys'
         | _, _ => false
         end) f1 f2
  | VSlice None, VSlice None => true
  | VSlice (Some e1), VSlice (Some e2) =>
      (fix elems (xs ys : list Value) {struct xs} : bool :=
         match xs, ys with
         | [], [] => true
         | x :: xs', y :: ys' => deepValueEqual x y && elems xs' ys'
         | _, _ => false
         end) e1 e2
  | VFunc None, VFunc None => true
  | VInterface None, VInterface None => true
  | VInterface (Some (D1, x1)), VInterface (Some (D2, x2)) =>
      GoType_eqb D1 D2 && deepValueEqual x1 x2
  | _, _ => false
  end.

(** [reflect.DeepEqual(x, y any)]. *)
Definition DeepEqual (x y : any) : bool :=
  match x, y with
  | None, None => true
  | None, Some _ | Some _, None => false
  | Some (D1, v1), Some (D2, v2) => GoType_eqb D1 D2 && deepValueEqual v1 v2
  end.

End reflect.

(** ** Package [errorx] *)

Module errorx.
Import golang.

Definition ErrType : Type := string.

Definition ErrTypeNotFound : ErrType := "not_found"%string.
Definition ErrTypeTimeout : ErrType := "timeout"%string.
Definition ErrTypeInvalid : ErrType := "invalid"%string.
Definition ErrTypeConflict : ErrType := "conflict"%string.
Definition ErrTypePermission : ErrType := "permission_denied"%string.
Definition ErrTypeInternal : ErrType := "internal_error"%string.
Definition ErrTypeUnavailable : ErrType := "unavailable"%string.

Record Frame : Type := mkFrame {
  Name : string;
  File : string;
  Line : Z
}.

Definition Stack : Type := list Frame.

(** The struct [customError]; [E] stands for the non-nil values of Go's
    [error] interface, which the [cause] field holds. *)
Record customErrorOf (E : Type) : Type := mkCustomError {
  msg : string;
  code : Z;
  errType : ErrType;
  stack : Stack;
  cause : option E
}.
Global Arguments mkCustomError {E} _ _ _ _ _.
Global Arguments msg {E} _.
Global Arguments code {E} _.
Global Arguments errType {E} _.
Global Arguments stack {E} _.
Global Arguments cause {E} _.

(** A non-nil value of Go's [error] interface: a [*customError] of this
    package, or an error implemented elsewhere, of which only the text its
    [Error()] method returns matters here. The fields of a [customError] are
    never assigned after construction, so the pointer is modelled by the
    record it points to. *)
Inductive dynError : Type :=
| foreignError (text : string)
| customErrorPtr (e : customErrorOf dynError).

Definition customError : Type := customErrorOf dynError.

(** The interfaces [error] and [Error]; [None] is nil. *)
Definition error : Type := option dynError.
Definition Error : Type := option customError.

Definition customError_Error (e : customError) : string := msg e.
Definition customError_Unwrap (e : customError) : error := cause e.
Definition customError_Cause (e : customError) : error := cause e.
Definition customError_Code (e : customError) : Z := code e.
Definition customError_Type (e : customError) : ErrType := errType e.
Definition customError_Stack (e : customError) : Stack := stack e.

(** [Format(f, c)]: [fmt.Fprintf(f, "%s", e.Error())]. [f] is the text
    written to the [fmt.State] so far, [c] the verb; the result is the text
    written after the call. *)
Definition customError_Format (e : customError) (f : string) (c : Z)
    : string :=
  (f ++ customError_Error e)%string.

(** [err.Error()] through the [error] interface. *)
Definition error_Error (err : dynError) : string :=
  match err with
  | foreignError text => text
  | customErrorPtr e => customError_Error e
  end.

(** The conversion of an [Error] to an [error]. *)
Definition as_error (e : Error) : error := customErrorPtr <$> e.

(** [captureStack]: [frames] is the goroutine's call stack as
    [runtime.Caller] resolves it from inside [captureStack], innermost first
    ([runtime.Caller(i)] is [frames !! i] and fails from the length of
    [frames] on). The loop starts at [i = 2] and stops at the first frame
    that does not resolve. *)
Fixpoint captureStack_loop (fuel : nat) (frames : list Frame) (i : nat)
    (stack : Stack) : Stack :=
  match fuel with
  | O => stack
  | S fuel' =>
      match frames !! i with
      | None => stack
      | Some f => captureStack_loop fuel' frames (S i) (stack ++ [f])
      end
  end.

Definition captureStack (frames : list Frame) : Stack :=
  captureStack_loop (length frames) frames 2 [].

Definition Wrap (frames : list Frame) (err : error) : Error :=
  match err with
  | None => None
  | Some e =>
      Some {| msg := error_Error e;
              code := 0;
              errType := ""%string;
              stack := captureStack frames;
              cause := Some e |}
  end.

Definition New (frames : list Frame) (msg : string) : Error :=
  Some {| msg := msg;
          code := 0;
          errType := ""%string;
          stack := captureStack frames;
          cause := None |}.

Definition C (frames : list Frame) (code : Z) (msg : string) : Error :=
  Some {| msg := msg;
          code := code;
          errType := ""%string;
          stack := captureStack frames;
          cause := None |}.

Section formatted.
(** [fmt.Sprintf], of which nothing is assumed. *)
Variable Sprintf : string -> list Value -> string.

Definition Cf (frames : list Frame) (code : Z) (format : string)
    (args : list Value) : Error :=
  Some {| msg := Sprintf format args;
          code := code;
          errType := ""%string;
          stack := captureStack frames;
          cause := None |}.
End formatted.

End errorx.

(** ** [sync.RWMutex], as one goroutine sees it *)

Module sync.
Import golang.

(** Whether a writer holds the lock, and how many readers do. *)
Record RWMutex : Type := mkRWMutex {
  writer : bool;
  readers : nat
}.

(** The zero value of a [RWMutex] is an unlocked mutex. *)
Definition unlocked : RWMutex := {| writer := false; readers := 0 |}.

(** An attempt to take the lock: it is taken, or the caller waits. *)
Definition Lock (mu : RWMutex) : option RWMutex :=
  match writer mu, readers mu with
  | false, O => Some {| writer := true; readers := 0 |}
  | _, _ => None
  end.

Definition RLock (mu : RWMutex) : option RWMutex :=
  if writer mu then None
  else Some {| writer := false; readers := S (readers mu) |}.

(** Releasing a lock that is not held is a fatal error. *)
Definition Unlock (mu : RWMutex) : result RWMutex :=
  if writer mu then Ok {| writer := false; readers := readers mu |}
  else Panics "sync: Unlock of unlocked RWMutex".

Definition RUnlock (mu : RWMutex) : result RWMutex :=
  match readers mu with
  | S n => Ok {| writer := writer mu; readers := n |}
  | O => Panics "sync: RUnlock of unlocked RWMutex"
  end.

End sync.

(** ** Package [config] *)

Module config.
Import golang.

(** [isZeroValue]: the argument is passed to [reflect.TypeOf] and to
    [reflect.DeepEqual] as an [any]; [T] is the type the generic function is
    instantiated at. *)
Definition isZeroValue (T : GoType) (value : Value) : result bool :=
  let i := to_any T value in
  match reflect.Zero (reflect.TypeOf i) with
  | Ok z => Ok (reflect.DeepEqual i (reflect.Interface z))
  | Panics msg => Panics msg
  end.

(** A pointer to a [localManager]. *)
Abbreviation ptr := positive (only parsing).

(** A value of the interface [Manager[T]]: nil, or a [*localManager[T]],
    the one implementation. *)
Definition Manager : Type := option ptr.

Section holder.
(** What a callback can act on: the program's state outside the holders. *)
Variable W : Type.

(** A non-nil [func(T)]. A callback is taken to return, and not to call
    into the holder that runs it (the holder's lock is held meanwhile). *)
Definition Callback : Type := Value -> W -> W.

Record localManager : Type := mkLocalManager {
  data : Value;
  mu : sync.RWMutex;
  callback : option Callback
}.

Definition set_data (v : Value) (h : localManager) : localManager :=
  {| data := v; mu := mu h; callback := callback h |}.
Definition set_mu (l : sync.RWMutex) (h : localManager) : localManager :=
  {| data := data h; mu := l; callback := callback h |}.
Definition set_callback (f : option Callback) (h : localManager)
    : localManager :=
  {| data := data h; mu := mu h; callback := f |}.

(** The state of a run: the holders allocated so far, the state the
    callbacks act on, and, as a record of what happened, the callback
    invocations in order, each with its argument. *)
Record Machine : Type := mkMachine {
  heap : gmap ptr localManager;
  world : W;
  calls : list (Callback * Value)
}.

(** A call returns a result, panics, or waits for a lock for ever. *)
Inductive outcome (A : Type) : Type :=
| Ret (a : A) (s : Machine)
| Panic (msg : string) (s : Machine)
| Blocked.

Definition M (A : Type) : Type := Machine -> outcome A.

Definition M_ret {A : Type} (a : A) : M A := fun s => Ret A a s.

Definition M_bind {A B : Type} (k : A -> M B) (c : M A) : M B :=
  fun s =>
    match c s with
    | Ret _ a s' => k a s'
    | Panic _ msg s' => Panic B msg s'
    | Blocked _ => Blocked B
    end.

Definition panic {A : Type} (msg : string) : M A := fun s => Panic A msg s.

Definition lift {A : Type} (r : result A) : M A :=
  match r with
  | Ok a => M_ret a
  | Panics msg => panic msg
  end.

(** [defer d; body]: [d] runs when [body] returns and when it panics. *)
Definition defer {A : Type} (d : M unit) (body : M A) : M A :=
  fun s =>
    match body s with
    | Ret _ a s' =>
        match d s' with
        | Ret _ _ s'' => Ret A a s''
        | Panic _ msg s'' => Panic A msg s''
        | Blocked _ => Blocked A
        end
    | Panic _ msg s' =>
        match d s' with
        | Ret _ _ s'' => Panic A msg s''
        | Panic _ msg' s'' => Panic A msg' s''
        | Blocked _ => Blocked A
        end
    | Blocked _ => Blocked A
    end.
End holder.

Global Arguments data {W} _.
Global Arguments mu {W} _.
Global Arguments callback {W} _.
Global Arguments mkLocalManager {W} _ _ _.
Global Arguments set_data {W} _ _.
Global Arguments set_mu {W} _ _.
Global Arguments set_callback {W} _ _.
Global Arguments heap {W} _.
Global Arguments world {W} _.
Global Arguments calls {W} _.
Global Arguments mkMachine {W} _ _ _.
Global Arguments Ret {W A} _ _.
Global Arguments Panic {W A} _ _.
Global Arguments Blocked {W A}.
Global Arguments M_ret {W A} _ _.
Global Arguments M_bind {W A B} _ _ _.
Global Arguments panic {W A} _ _.
Global Arguments lift {W A} _ _.
Global Arguments defer {W A} _ _ _.

Global Instance M_mret {W : Type} : MRet (M W) := @M_ret W.
Global Instance M_mbind {W : Type} : MBind (M W) := @M_bind W.

Section methods.
Context {W : Type}.

(** Reading and writing through a pointer. *)
Definition deref (m : ptr) : M W (localManager W) :=
  fun s =>
    match heap s !! m with
    | Some h => Ret h s
    | None => Panic "invalid memory address or nil pointer dereference" s
    end.

Definition store (m : ptr) (h : localManager W) : M W unit :=
  fun s => Ret tt {| heap := <[m := h]> (heap s);
                     world := world s;
                     calls := calls s |}.

(** The assignment of one field, [m.field = x]. *)
Definition assign (m : ptr) (f : localManager W -> localManager W)
    : M W unit :=
  h ← deref m;
  store m (f h).

Definition block {A : Type} : M W A := fun _ => Blocked.

(** [m.mu.Lock()] and the like. *)
Definition mu_Lock (m : ptr) : M W unit :=
  h ← deref m;
  match sync.Lock (mu h) with
  | Some l => assign m (set_mu l)
  | None => block
  end.

Definition mu_RLock (m : ptr) : M W unit :=
  h ← deref m;
  match sync.RLock (mu h) with
  | Some l => assign m (set_mu l)
  | None => block
  end.

Definition mu_Unlock (m : ptr) : M W unit :=
  h ← deref m;
  l ← lift (sync.Unlock (mu h));
  assign m (set_mu l).

Definition mu_RUnlock (m : ptr) : M W unit :=
  h ← deref m;
  l ← lift (sync.RUnlock (mu h));
  assign m (set_mu l).

(** The call [f(v)] of a callback. *)
Definition invoke (f : Callback W) (v : Value) : M W unit :=
  fun s => Ret tt {| heap := heap s;
                     world := f v (world s);
                     calls := calls s ++ [(f, v)] |}.

Definition Get (m : ptr) : M W Value :=
  mu_RLock m;;
  defer (mu_RUnlock m)
    (h ← deref m;
     mret (data h)).

Definition Update (m : ptr) (newData : Value) : M W errorx.Error :=
  mu_Lock m;;
  defer (mu_Unlock m)
    (assign m (set_data newData);;
     h ← deref m;
     match callback h with
     | Some f => invoke f newData
     | None => mret tt
     end;;
     mret None).

(** The function literal that [OnChange] returns; it refers to [m] alone. *)
Definition cancel (m : ptr) : M W unit :=
  mu_Lock m;;
  defer (mu_Unlock m)
    (assign m (set_callback None)).

Definition OnChange (m : ptr) (callback : option (Callback W))
    : M W (M W unit) :=
  mu_Lock m;;
  defer (mu_Unlock m)
    (assign m (set_callback callback);;
     mret (cancel m)).

Definition Watch (m : ptr) : M W Manager := mret (Some m).

Definition InitData (T : GoType) (m : ptr) (initialData : Value)
    : M W Manager :=
  mu_Lock m;;
  defer (mu_Unlock m)
    (h ← deref m;
     z ← lift (isZeroValue T (data h));
     (if z : bool then assign m (set_data initialData) else mret tt);;
     mret (Some m)).

(** [&localManager[T]{}]: a new holder at an address not in use. *)
Definition Local (T : GoType) : M W Manager :=
  fun s =>
    let m := fresh (dom (heap s)) in
    Ret (Some m)
        {| heap := <[m := {| data := zero T;
                             mu := sync.unlocked;
                             callback := None |}]> (heap s);
           world := world s;
           calls := calls s |}.

Definition Etcd (T : GoType) : M W Manager := mret None.

(** A method call through a [Manager[T]] value: on nil it panics. *)
Definition via {A : Type} (h : Manager) (method : ptr -> M W A) : M W A :=
  match h with
  | Some m => method m
  | None => panic "invalid memory address or nil pointer dereference"
  end.
End methods.

End config.

(** ** The demonstration program, [main.go] *)

Module main.
Import golang config.

Definition ErrCodeSecretTooShort : Z := 1001.

(** [type Secret string] and [type Config struct { Secret Secret }]. *)
Definition Secret : GoType := TString.
Definition Config : GoType := TStruct [Secret].

Section validate.
Variable Sprintf : string -> list Value -> string.

Definition Validate (frames : list errorx.Frame) (s : string)
    : errorx.Error :=
  if Z.of_nat (String.length s) <? 8
  then errorx.Cf Sprintf frames ErrCodeSecretTooShort
         "invalid secret %s" [VString s]
  else None.
End validate.

(** [var conf = config.Local[Config]().Watch().InitData(Config{...})]. *)
Definition conf {W : Type} : M W Manager :=
  a ← Local Config;
  b ← via a Watch;
  via b (fun m => InitData Config m (VStruct [VString "hello world"])).

End main.

(** ** Vocabulary of the properties *)

Module props.
Import golang config.

Section vocabulary.
Context {W : Type}.
Implicit Types (s : Machine W) (m : positive) (h : localManager W).

(** [m] points to the holder [h], and nobody holds its lock: the state of
    a holder between two calls of a sequential program. *)
Definition idle s m h : Prop :=
  heap s !! m = Some h ∧ mu h = sync.unlocked.

(** The state [s] with [h] written at [m]. *)
Definition with_holder s m h : Machine W :=
  {| heap := <[m := h]> (heap s); world := world s; calls := calls s |}.

(** The state [s] after the call of [cb], if there is one, on [v]. *)
Definition notify (cb : option (Callback W)) (v : Value) s : Machine W :=
  match cb with
  | Some f => {| heap := heap s;
                 world := f v (world s);
                 calls := calls s ++ [(f, v)] |}
  | None => s
  end.

(** The state in which a call ends, when it does not wait for ever. *)
Definition final {A : Type} (o : outcome W A) : option (Machine W) :=
  match o with
  | Ret _ s => Some s
  | Panic _ s => Some s
  | Blocked => None
  end.

(** The operations a client has on a holder it points to; [OpCancel] is
    the call of a handle that an earlier [OnChange] on this holder
    returned. *)
Inductive op : Type :=
| OpGet
| OpUpdate (v : Value)
| OpOnChange (cb : option (Callback W))
| OpCancel
| OpWatch
| OpInitData (v : Value).

Definition exec (T : GoType) m (o : op) : M W unit :=
  match o with
  | OpGet => Get m;; mret tt
  | OpUpdate v => Update m v;; mret tt
  | OpOnChange cb => OnChange m cb;; mret tt
  | OpCancel => cancel m
  | OpWatch => Watch m;; mret tt
  | OpInitData v => InitData T m v;; mret tt
  end.

Fixpoint run_ops (T : GoType) m (os : list op) : M W unit :=
  match os with
  | [] => mret tt
  | o :: os' => exec T m o;; run_ops T m os'
  end.

(** An operation that does not store the zero value of [T] by [Update]. *)
Definition keeps_nonzero (T : GoType) (o : op) : Prop :=
  match o with
  | OpUpdate v => v ≠ zero T
  | _ => True
  end.
(** Whether an operation is an [Update]. *)
Definition is_update (o : op) : bool :=
  match o with
  | OpUpdate _ => true
  | _ => false
  end.

(** The chain [Local[T]().Watch().InitData(v)], as [main.go] builds its
    [conf]. *)
Definition make (T : GoType) (v : Value) : M W Manager :=
  a ← Local T;
  b ← via a Watch;
  via b (fun m => InitData T m v).
End vocabulary.

Global Arguments op W : clear implicits.

(** [Wrap] as a function from [error] to [error], and a tower of wraps, one
    per call stack of [stacks], the first of them outermost. *)
Definition rewrap (frames : list errorx.Frame) (err : errorx.error)
    : errorx.error :=
  errorx.as_error (errorx.Wrap frames err).

Definition wraps (stacks : list (list errorx.Frame)) (err : errorx.error)
    : errorx.error :=
  foldr rewrap err stacks.

(** [errors.Unwrap] of the standard library: the result of the [Unwrap]
    method where the error has one. An error from elsewhere is taken to have
    none. *)
Definition Unwrap (err : errorx.error) : errorx.error :=
  match err with
  | Some (errorx.customErrorPtr e) => errorx.customError_Unwrap e
  | _ => None
  end.

(** Inputs of the examples: callbacks that append their tag and argument to
    a log, and a state with one holder at address 1, as [main.conf] leaves
    it. *)
Definition log : Type := list (Z * Value).

Definition logger (tag : Z) : Callback log :=
  fun v w => w ++ [(tag, v)].

Definition hello : Value := VStruct [VString "hello world"].

Definition conf_holder : localManager log :=
  {| data := hello; mu := sync.unlocked; callback := None |}.

Definition boot : Machine log :=
  {| heap := ∅; world := []; calls := [] |}.

Definition booted : Machine log :=
  {| heap := {[ 1%positive := conf_holder ]}; world := []; calls := [] |}.

(** A holder of the interface type that was never written. *)
Definition any_holder : localManager log :=
  {| data := zero TInterface; mu := sync.unlocked; callback := None |}.

Definition booted_any : Machine log :=
  {| heap := {[ 1%positive := any_holder ]}; world := []; calls := [] |}.

Definition updated : Value := VStruct [VString "updated secret"].



End props.

(** * Properties *)

Import golang config props.

(** ** Types and the zero test *)

(** Induction on a type, with the fields of a struct under [Forall]. *)
Lemma GoType_nested_ind (P : GoType → Prop) :
  P TBool → P TInt → P TString →
  (∀ fields, Forall P fields → P (TStruct fields)) →
  (∀ elem, P elem → P (TSlice elem)) →
  P TFunc → P TInterface →
  ∀ T, P T.
Proof.
  intros HB HI HS Hstruct Hslice HF HA.
  fix IH 1. intros [ | | | fields | elem | | ]; try assumption.
  - apply Hstruct. induction fields as [|f fields IHf]; constructor.
    + apply IH.
    + apply IHf.
  - apply Hslice, IH.
Qed.

Lemma GoType_eqb_refl T : GoType_eqb T T = true.
Proof.
  induction T as [ | | | fields IH | elem IH | | ] using GoType_nested_ind;
    try reflexivity; [|exact IH].
  cbn. induction IH as [|f fields Hf _ IHf]; [reflexivity|].
  by rewrite Hf, IHf.
Qed.

(** The zero value of a type is a value of the type. *)
Lemma zero_has_type T : has_type (zero T) T = true.
Proof.
  induction T as [ | | | fields IH | elem IH | | ] using GoType_nested_ind;
    try reflexivity.
  cbn. induction IH as [|f fields Hf _ IHf]; [reflexivity|].
  cbn. by rewrite Hf, IHf.
Qed.

(** Against the zero value of a type, [deepValueEqual] is equality. *)
Lemma deepValueEqual_zero T v :
  reflect.deepValueEqual v (zero T) = true ↔ v = zero T.
Proof.
  revert v.
  induction T as [ | | | fields IH | elem IH | | ] using GoType_nested_ind;
    intros [b|n|t|vs|[es|]|[c|]|[[D x]|]]; cbn;
    try (split; congruence).
  - destruct b; simpl; split; congruence.
  - rewrite Z.eqb_eq. split; congruence.
  - rewrite String.eqb_eq. split; congruence.
  - transitivity (vs = map zero fields); [|split; congruence].
    revert vs. induction IH as [|f fields Hf _ IHf]; intros [|x vs]; cbn;
      try (split; congruence).
    rewrite andb_true_iff, Hf, IHf. split; [intros [-> ->]; reflexivity|].
    intros [= -> ->]. done.
Qed.

(** At a type that is not an interface type, [isZeroValue] returns, and
    returns true exactly on the zero value of the type. *)
Lemma isZeroValue_concrete T v :
  is_interface T = false →
  ∃ z, isZeroValue T v = Ok z ∧ (z = true ↔ v = zero T).
Proof.
  intros HT. exists (reflect.deepValueEqual v (zero T)).
  split; [|apply deepValueEqual_zero].
  assert (Hany : ∀ x, to_any T x = Some (T, x))
    by (intros x; destruct T; try reflexivity; discriminate).
  unfold isZeroValue. rewrite Hany. cbn.
  unfold reflect.Interface. cbn. rewrite Hany. cbn.
  by rewrite GoType_eqb_refl.
Qed.

(** At the interface type the test is made on the dynamic type: it panics
    on the nil interface, which is the zero value, and it is true of a
    non-nil interface that holds the zero value of its dynamic type. *)
Lemma isZeroValue_interface (dyn : any) :
  isZeroValue TInterface (VInterface dyn) =
    match dyn with
    | None => Panics "reflect: Zero(nil)"
    | Some (D, x) => Ok (reflect.DeepEqual (Some (D, x)) (to_any D (zero D)))
    end.
Proof. by destruct dyn as [[D x]|]. Qed.

Example isZeroValue_boxed_zero :
  isZeroValue TInterface (VInterface (Some (TInt, VInt 0))) = Ok true
  ∧ VInterface (Some (TInt, VInt 0)) ≠ zero TInterface.
Proof. split; [reflexivity | discriminate]. Qed.

(** ** The captured stack *)

Lemma captureStack_loop_drop fuel frames i acc :
  (length frames ≤ fuel + i)%nat →
  errorx.captureStack_loop fuel frames i acc = acc ++ drop i frames.
Proof.
  revert i acc. induction fuel as [|fuel IH]; intros i acc Hlen; cbn.
  - rewrite drop_ge by lia. by rewrite app_nil_r.
  - destruct (frames !! i) as [f|] eqn:Hf.
    + rewrite IH by lia. rewrite <- app_assoc. cbn.
      by rewrite (drop_S _ _ _ Hf).
    + apply lookup_ge_None in Hf. rewrite drop_ge by lia.
      by rewrite app_nil_r.
Qed.

(** The loop of [captureStack] ends, with the frames from the third on. *)
Lemma captureStack_drop frames :
  errorx.captureStack frames = drop 2 frames.
Proof. unfold errorx.captureStack. by rewrite captureStack_loop_drop by lia. Qed.

(** ** What each method does on an idle holder *)

Section runs.
Context {W : Type}.
Implicit Types (s : Machine W) (m : positive) (h : localManager W).

Lemma with_holder_same s m h :
  heap s !! m = Some h → with_holder s m h = s.
Proof.
  intros H. destruct s as [hp w c]. unfold with_holder.
  cbn [heap world calls] in *. by rewrite insert_id.
Qed.

Lemma with_holder_twice s m h h' :
  with_holder (with_holder s m h) m h' = with_holder s m h'.
Proof. unfold with_holder. cbn [heap world calls]. by rewrite insert_insert_eq. Qed.

Lemma idle_with_holder s m h :
  mu h = sync.unlocked → idle (with_holder s m h) m h.
Proof. intros Hmu. split; [apply lookup_insert_eq | exact Hmu]. Qed.

Lemma deref_with_holder s m h :
  deref m (with_holder s m h) = Ret h (with_holder s m h).
Proof. unfold deref, with_holder. cbn [heap]. by rewrite lookup_insert_eq. Qed.

Lemma store_with_holder s m h h' :
  store m h' (with_holder s m h) = Ret tt (with_holder s m h').
Proof.
  unfold store, with_holder. cbn [heap world calls].
  by rewrite insert_insert_eq.
Qed.

Lemma invoke_with_holder s m h f v :
  invoke f v (with_holder s m h)
  = Ret tt (with_holder (notify (Some f) v s) m h).
Proof. reflexivity. Qed.
End runs.

(** Runs a method body on a state of the form [with_holder s m h], with [h]
    a record whose lock is known. *)
Ltac run :=
  unfold Get, Update, OnChange, cancel, InitData, Watch,
    mu_Lock, mu_RLock, mu_Unlock, mu_RUnlock, assign, block, defer, lift,
    panic, mbind, M_mbind, M_bind, mret, M_mret, M_ret;
  repeat first
    [ rewrite deref_with_holder
    | rewrite store_with_holder
    | rewrite invoke_with_holder
    | progress cbn [sync.Lock sync.RLock sync.Unlock sync.RUnlock
                    sync.unlocked sync.writer sync.readers
                    mu data callback set_mu set_data set_callback] ].

(** Brings the state of an idle holder to that form. *)
Ltac on_idle H s m h :=
  destruct H as [?Hm ?Hmu];
  rewrite <- (with_holder_same s m h ltac:(eassumption)) at 1;
  destruct h as [?d ?l ?cb0]; cbn [mu data callback] in *; subst.

Section method_runs.
Context {W : Type}.
Implicit Types (s : Machine W) (m : positive) (h : localManager W).

Lemma Get_run s m h : idle s m h → Get m s = Ret (data h) s.
Proof.
  intros H. pose proof (with_holder_same s m h (proj1 H)) as E.
  rewrite <- E at 2. on_idle H s m h. run. reflexivity.
Qed.

Lemma Update_run s m h v :
  idle s m h →
  Update m v s
  = Ret None (with_holder (notify (callback h) v s) m (set_data v h)).
Proof. intros H. on_idle H s m h. run. destruct cb0; run; reflexivity. Qed.

Lemma cancel_run s m h :
  idle s m h →
  cancel m s = Ret tt (with_holder s m (set_callback None h)).
Proof. intros H. on_idle H s m h. run. reflexivity. Qed.

Lemma OnChange_run s m h cb :
  idle s m h →
  OnChange m cb s = Ret (cancel m) (with_holder s m (set_callback cb h)).
Proof. intros H. on_idle H s m h. run. reflexivity. Qed.

Lemma InitData_run T s m h v z :
  idle s m h → isZeroValue T (data h) = Ok z →
  InitData T m v s
  = Ret (Some m) (if z then with_holder s m (set_data v h) else s).
Proof.
  intros H Hz. pose proof (with_holder_same s m h (proj1 H)) as E.
  destruct z; [|rewrite <- E at 2]; on_idle H s m h;
    run; rewrite Hz; run; reflexivity.
Qed.

Lemma InitData_run_panic T s m h v msg :
  idle s m h → isZeroValue T (data h) = Panics msg →
  InitData T m v s = Panic msg s.
Proof.
  intros H Hz. pose proof (with_holder_same s m h (proj1 H)) as E.
  rewrite <- E at 2. on_idle H s m h. run. rewrite Hz. run. reflexivity.
Qed.

(** On a holder whose type is not an interface type, [InitData] stores
    its argument when the stored value is the zero value, changes nothing
    otherwise, and returns the pointer it was called on. *)
Lemma InitData_on_concrete_type T s m h v :
  is_interface T = false → idle s m h →
  (data h = zero T →
     InitData T m v s = Ret (Some m) (with_holder s m (set_data v h)))
  ∧ (data h ≠ zero T → InitData T m v s = Ret (Some m) s).
Proof.
  intros HT H. destruct (isZeroValue_concrete T (data h) HT) as (z & Hz & Hiff).
  rewrite (InitData_run T s m h v z H Hz). split; intros Hd.
  - apply Hiff in Hd. by subst z.
  - destruct z; [|reflexivity]. by destruct Hd; apply Hiff.
Qed.
End method_runs.

(** ** The error value *)

(** C7. [Wrap(nil)] is nil; for a non-nil [err], [Wrap(err)] is a non-nil
    [Error] whose [Cause()] is [err] and whose [Error()] text is the text of
    [err]. *)
Theorem Wrap_nil_and_cause (frames : list errorx.Frame) :
  errorx.Wrap frames None = None
  ∧ ∀ err : errorx.dynError,
      ∃ e : errorx.customError,
        errorx.Wrap frames (Some err) = Some e
        ∧ errorx.customError_Cause e = Some err
        ∧ errorx.customError_Error e = errorx.error_Error err.
Proof.
  split; [reflexivity|]. intros err. eexists. split; [reflexivity|].
  split; reflexivity.
Qed.

(** C10. For a non-nil [err], whatever code and type tag it carries itself,
    the [Error] that [Wrap(err)] returns has [Code()] 0 and the empty
    [Type()]. *)
Theorem Wrap_resets_code_and_type (frames : list errorx.Frame)
    (err : errorx.dynError) :
  ∃ e : errorx.customError,
    errorx.Wrap frames (Some err) = Some e
    ∧ errorx.customError_Code e = 0
    ∧ errorx.customError_Type e = ""%string.
Proof. eexists. split; [reflexivity|]. split; reflexivity. Qed.

(** A cause with code 1001 and type [invalid], wrapped. *)
Example Wrap_of_coded_error :
  let inner := errorx.mkCustomError "secret too short"%string 1001
                 errorx.ErrTypeInvalid [] None in
  ∃ e, errorx.Wrap [] (Some (errorx.customErrorPtr inner)) = Some e
       ∧ errorx.customError_Code e = 0
       ∧ errorx.customError_Type e = ""%string
       ∧ errorx.customError_Code inner = 1001.
Proof. eexists. repeat split. Qed.

(** ** The holder *)

Section holder_properties.
Context {W : Type}.
Implicit Types (s : Machine W) (m : positive) (h : localManager W).
Implicit Types (cb : Callback W) (v w : Value).

(** C1. On an idle holder, [Update(v)] returns nil and leaves the holder
    with [v] as its value, its other fields as they were; the [Get()] that
    follows returns [v]. *)
Theorem Update_then_Get s m h v :
  idle s m h →
  ∃ s1,
    Update m v s = Ret None s1
    ∧ idle s1 m (set_data v h)
    ∧ Get m s1 = Ret v s1.
Proof.
  intros H. eexists. split; [by apply Update_run|].
  assert (Hi : idle (with_holder (notify (callback h) v s) m (set_data v h))
                 m (set_data v h))
    by (apply idle_with_holder, H).
  split; [exact Hi|]. by rewrite (Get_run _ _ _ Hi).
Qed.

(** C3. On an idle holder, [OnChange(cb)] followed by [Update(v)] makes
    one call of a callback, the call [cb(v)], and it is made by the time
    [Update] returns: the state [Update] returns in has that one call more
    on record, and is the state [cb(v)] has acted on. *)
Theorem OnChange_then_Update_invokes_once s m h cb v :
  idle s m h →
  ∃ c s1 s2,
    OnChange m (Some cb) s = Ret c s1
    ∧ calls s1 = calls s ∧ world s1 = world s
    ∧ Update m v s1 = Ret None s2
    ∧ calls s2 = calls s ++ [(cb, v)]
    ∧ world s2 = cb v (world s).
Proof.
  intros H. eexists _, _, _. split; [by apply OnChange_run|].
  split; [reflexivity|]. split; [reflexivity|].
  split.
  - by rewrite (Update_run _ m (set_callback (Some cb) h))
      by (apply idle_with_holder, H).
  - split; reflexivity.
Qed.
End holder_properties.

(** C2. At the failing input: a holder of the empty interface type, as
    [Local] makes it, holds the nil interface, the zero value of its type;
    [InitData] on it panics inside [reflect.Zero], stores nothing and
    returns no holder. *)
Theorem InitData_nil_interface_panics :
  ∃ s' : Machine log,
    (a ← Local TInterface;
     via a (λ m, InitData TInterface m (VInterface (Some (TInt, VInt 1)))))
      boot
    = Panic "reflect: Zero(nil)" s'
    ∧ idle s' 1%positive
        {| data := zero TInterface; mu := sync.unlocked; callback := None |}
    ∧ has_type (VInterface (Some (TInt, VInt 1))) TInterface = true.
Proof.
  eexists. split; [vm_compute; reflexivity|].
  split; [split; reflexivity | reflexivity].
Qed.

Lemma Update_then_Get_witness :
  idle booted 1%positive conf_holder
  ∧ ∃ s1,
      Update 1%positive (VStruct [VString "updated secret"]) booted
      = Ret None s1
      ∧ idle s1 1%positive
          (set_data (VStruct [VString "updated secret"]) conf_holder)
      ∧ Get 1%positive s1 = Ret (VStruct [VString "updated secret"]) s1.
Proof.
  split; [split; reflexivity|].
  apply (Update_then_Get booted 1%positive conf_holder). split; reflexivity.
Defined.

Lemma OnChange_then_Update_invokes_once_witness :
  idle booted 1%positive conf_holder
  ∧ ∃ c s1 s2,
      OnChange 1%positive (Some (logger 1)) booted = Ret c s1
      ∧ calls s1 = calls booted ∧ world s1 = world booted
      ∧ Update 1%positive (VStruct [VString "updated secret"]) s1 = Ret None s2
      ∧ calls s2
        = calls booted ++ [(logger 1, VStruct [VString "updated secret"])]
      ∧ world s2
        = logger 1 (VStruct [VString "updated secret"]) (world booted).
Proof.
  split; [split; reflexivity|].
  apply (OnChange_then_Update_invokes_once booted 1%positive conf_holder).
  split; reflexivity.
Defined.

(** ** Sequences of operations *)

Section sequences.
Context {W : Type}.
Implicit Types (s : Machine W) (m : positive) (h : localManager W).
Implicit Types (cb : Callback W) (v w : Value) (o : op W).

Lemma bind_run {A B} (c : M W A) (k : A → M W B) s a s' :
  c s = Ret a s' → (c ≫= k) s = k a s'.
Proof. intros H. unfold mbind, M_mbind, M_bind. by rewrite H. Qed.

Lemma bind_run_panic {A B} (c : M W A) (k : A → M W B) s msg s' :
  c s = Panic msg s' → (c ≫= k) s = Panic msg s'.
Proof. intros H. unfold mbind, M_mbind, M_bind. by rewrite H. Qed.

(** Every operation on an idle holder ends, leaves the holder idle, and
    calls a callback at most once. *)
Lemma exec_idle T s m h o :
  idle s m h →
  ∃ s' h',
    final (exec T m o s) = Some s'
    ∧ idle s' m h'
    ∧ (length (calls s') ≤ S (length (calls s)))%nat.
Proof.
  intros H. destruct o as [|v|cb| | |v]; cbn [exec].
  - rewrite (bind_run _ _ _ _ _ (Get_run s m h H)).
    exists s, h. repeat split; [apply H..|lia].
  - rewrite (bind_run _ _ _ _ _ (Update_run s m h v H)).
    eexists _, _. split; [reflexivity|].
    split; [apply idle_with_holder, H|].
    destruct (callback h); cbn; rewrite ?length_app; cbn; lia.
  - rewrite (bind_run _ _ _ _ _ (OnChange_run s m h cb H)).
    eexists _, _. split; [reflexivity|].
    split; [apply idle_with_holder, H | cbn; lia].
  - rewrite (cancel_run s m h H).
    eexists _, _. split; [reflexivity|].
    split; [apply idle_with_holder, H | cbn; lia].
  - exists s, h. repeat split; [apply H..|lia].
  - destruct (isZeroValue T (data h)) as [z|msg] eqn:Hz.
    + rewrite (bind_run _ _ _ _ _ (InitData_run T s m h v z H Hz)).
      destruct z.
      * eexists _, _. split; [reflexivity|].
        split; [apply idle_with_holder, H | cbn; lia].
      * exists s, h. repeat split; [apply H..|lia].
    + rewrite (bind_run_panic _ _ _ _ _ (InitData_run_panic T s m h v msg H Hz)).
      exists s, h. repeat split; [apply H..|lia].
Qed.

(** An operation that is not an [Update] with the zero value keeps a
    holder of a non-interface type away from the zero value. *)
Lemma exec_keeps_nonzero T s m h o :
  is_interface T = false →
  idle s m h → data h ≠ zero T → keeps_nonzero T o →
  ∃ s' h', exec T m o s = Ret tt s' ∧ idle s' m h' ∧ data h' ≠ zero T.
Proof.
  intros HT H Hd Ho. destruct o as [|v|cb| | |v]; cbn [exec].
  - rewrite (bind_run _ _ _ _ _ (Get_run s m h H)). by exists s, h.
  - rewrite (bind_run _ _ _ _ _ (Update_run s m h v H)).
    eexists _, _. split; [reflexivity|].
    split; [apply idle_with_holder, H | exact Ho].
  - rewrite (bind_run _ _ _ _ _ (OnChange_run s m h cb H)).
    eexists _, _. split; [reflexivity|].
    split; [apply idle_with_holder, H | exact Hd].
  - rewrite (cancel_run s m h H).
    eexists _, _. split; [reflexivity|].
    split; [apply idle_with_holder, H | exact Hd].
  - by exists s, h.
  - destruct (InitData_on_concrete_type T s m h v HT H) as [_ Hkeep].
    rewrite (bind_run _ _ _ _ _ (Hkeep Hd)). by exists s, h.
Qed.

Lemma run_ops_keeps_nonzero T m os :
  is_interface T = false →
  Forall (keeps_nonzero T) os →
  ∀ s h, idle s m h → data h ≠ zero T →
  ∃ s' h', run_ops T m os s = Ret tt s' ∧ idle s' m h' ∧ data h' ≠ zero T.
Proof.
  intros HT Hos. induction Hos as [|o os Ho _ IH]; intros s h H Hd.
  - by exists s, h.
  - destruct (exec_keeps_nonzero T s m h o HT H Hd Ho) as (s1 & h1 & E & H1 & Hd1).
    cbn [run_ops]. rewrite (bind_run _ _ _ _ _ E). by apply (IH s1 h1).
Qed.
End sequences.

(** ** Observers, cancellation and initialization *)

Section observer_properties.
Context {W : Type}.
Implicit Types (s : Machine W) (m : positive) (h : localManager W).
Implicit Types (cb : Callback W) (v w : Value).

(** C4, as amended. The handle that [OnChange(cb)] returns empties the
    observer slot of the holder, whatever the slot holds when the handle is
    called (a state [s2] in which the holder is idle): [cb] itself when it
    is still registered, as in the state [s1] right after the
    registration, or a callback registered since. Nothing else changes, a
    second call changes nothing at all, and an [Update] after the call
    invokes no callback. *)
Theorem cancel_clears_observer_slot s m h cb :
  idle s m h →
  ∃ c s1,
    OnChange m (Some cb) s = Ret c s1
    ∧ idle s1 m (set_callback (Some cb) h)
    ∧ ∀ s2 h2, idle s2 m h2 →
        ∃ s3,
          c s2 = Ret tt s3
          ∧ s3 = with_holder s2 m (set_callback None h2)
          ∧ idle s3 m (set_callback None h2)
          ∧ c s3 = Ret tt s3
          ∧ ∀ v, ∃ s4,
              Update m v s3 = Ret None s4
              ∧ calls s4 = calls s2 ∧ world s4 = world s2.
Proof.
  intros H. exists (cancel m), (with_holder s m (set_callback (Some cb) h)).
  split; [by apply OnChange_run|].
  split; [apply idle_with_holder, H|].
  intros s2 h2 H2. exists (with_holder s2 m (set_callback None h2)).
  assert (H3 : idle (with_holder s2 m (set_callback None h2)) m
                 (set_callback None h2))
    by (apply idle_with_holder, H2).
  split; [by apply cancel_run|]. split; [reflexivity|]. split; [exact H3|].
  split.
  - rewrite (cancel_run _ _ _ H3). by rewrite with_holder_twice.
  - intros v. eexists. split; [by apply Update_run|]. split; reflexivity.
Qed.

(** C5. The holder has one observer slot. Every operation on an idle
    holder ends, leaves it idle and calls a callback at most once. After
    [OnChange(cb1)] and [OnChange(cb2)] the slot holds [cb2]; the next
    [Update(v)] makes the one call [cb2(v)]; and the state is the one that
    [OnChange(cb2)] alone leads to, so that nothing that follows depends
    on [cb1] having been registered. *)
Theorem single_observer_slot T s m h cb1 cb2 v :
  idle s m h →
  (∀ o : op W,
     ∃ s' h',
       final (exec T m o s) = Some s'
       ∧ idle s' m h'
       ∧ (length (calls s') ≤ S (length (calls s)))%nat)
  ∧ ∃ c1 c2 s1 s2 s3,
      OnChange m (Some cb1) s = Ret c1 s1
      ∧ OnChange m (Some cb2) s1 = Ret c2 s2
      ∧ idle s2 m (set_callback (Some cb2) h)
      ∧ Update m v s2 = Ret None s3
      ∧ calls s3 = calls s ++ [(cb2, v)]
      ∧ world s3 = cb2 v (world s)
      ∧ OnChange m (Some cb2) s = Ret c2 s2.
Proof.
  intros H. split; [intros o; by apply (exec_idle T s m h)|].
  pose proof (idle_with_holder s m (set_callback (Some cb1) h) (proj2 H)) as H1.
  pose proof (idle_with_holder s m (set_callback (Some cb2) h) (proj2 H)) as H2.
  exists (cancel m), (cancel m),
    (with_holder s m (set_callback (Some cb1) h)),
    (with_holder s m (set_callback (Some cb2) h)).
  eexists. split; [by apply OnChange_run|].
  split; [by rewrite (OnChange_run _ _ _ _ H1), with_holder_twice|].
  split; [exact H2|].
  split; [by apply Update_run|].
  split; [reflexivity|]. split; [reflexivity|]. by apply OnChange_run.
Qed.

(** C6, as amended. For a holder whose type is not an interface type,
    initialized means that the stored value is not the zero value of the
    type. After [Update(v)] with such a [v], [InitData(w)] changes nothing
    for any [w]. [InitData(w)] with such a [w] initializes a holder that
    holds the zero value. An initialized holder stays initialized through
    every sequence of operations in which no [Update] stores the zero
    value, and every such sequence runs to its end. *)
Theorem initialized_is_kept T s m h :
  is_interface T = false →
  idle s m h →
  (∀ v w, v ≠ zero T →
     ∃ s1 s2,
       Update m v s = Ret None s1
       ∧ InitData T m w s1 = Ret (Some m) s2
       ∧ s2 = s1
       ∧ Get m s2 = Ret v s2)
  ∧ (data h = zero T → ∀ w, w ≠ zero T →
       ∃ s1, InitData T m w s = Ret (Some m) s1
             ∧ idle s1 m (set_data w h))
  ∧ (data h ≠ zero T → ∀ os : list (op W),
       Forall (keeps_nonzero T) os →
       ∃ s' h',
         run_ops T m os s = Ret tt s' ∧ idle s' m h' ∧ data h' ≠ zero T).
Proof.
  intros HT H. split; [|split].
  - intros v w Hv.
    pose proof (idle_with_holder (notify (callback h) v s) m (set_data v h)
                  (proj2 H)) as H1.
    eexists _, _. split; [by apply Update_run|].
    destruct (InitData_on_concrete_type T _ m _ w HT H1) as [_ Hkeep].
    split; [by apply Hkeep|]. split; [reflexivity|].
    by rewrite (Get_run _ _ _ H1).
  - intros Hd w Hw.
    destruct (InitData_on_concrete_type T s m h w HT H) as [Hset _].
    eexists. split; [by apply Hset|]. apply idle_with_holder, H.
  - intros Hd os Hos. by apply (run_ops_keeps_nonzero T m os HT Hos s h).
Qed.

(** C8, as amended. [Etcd] is a placeholder: it returns the nil [Manager]
    at once, in the state it was called in, and signals no failure. *)
Theorem Etcd_returns_nil_handle T s :
  Etcd T s = Ret None s.
Proof. reflexivity. Qed.
End observer_properties.

(** C4, as stated, fails: [cb1] is registered, then [cb2] in its place, then
    the handle of the first registration is called. The claim has the call
    do nothing, and [cb2] fire on the next [Update]; in the code the slot is
    empty after the call and [Update] invokes nothing. *)
Lemma stale_cancel_removes_newer_callback :
  ∃ s' : Machine log,
    (c1 ← OnChange 1%positive (Some (logger 1));
     OnChange 1%positive (Some (logger 2));;
     c1;;
     Update 1%positive (VStruct [VString "updated secret"])) booted
    = Ret None s'
    ∧ callback <$> heap s' !! 1%positive = Some None
    ∧ calls s' = []
    ∧ world s' = []
    ∧ world s' ≠ logger 2 (VStruct [VString "updated secret"]) [].
Proof.
  eexists. split; [vm_compute; reflexivity|].
  repeat split; discriminate.
Qed.

(** C6, as stated, fails: [Update] with the zero value of the type, then
    [InitData(w)]. The claim has the stored value unchanged, the zero value;
    the code stores [w]. *)
Lemma Update_zero_then_InitData_overwrites :
  ∃ s' : Machine log,
    (Update 1%positive (zero main.Config);;
     InitData main.Config 1%positive (VStruct [VString "other"]);;
     Get 1%positive) booted
    = Ret (VStruct [VString "other"]) s'
    ∧ VStruct [VString "other"] ≠ zero main.Config.
Proof. eexists. split; [vm_compute; reflexivity | discriminate]. Qed.

(** C8, as stated, fails: a call of [Etcd] neither panics nor returns a
    holder; it returns nil. *)
Lemma Etcd_silently_yields_nil :
  ¬ ((∃ msg s', Etcd (W := log) main.Config boot = Panic msg s')
     ∨ (∃ m s', Etcd (W := log) main.Config boot = Ret (Some m) s'))
  ∧ Etcd (W := log) main.Config boot = Ret None boot.
Proof.
  split; [|reflexivity]. intros [(msg & s' & E)|(m & s' & E)]; discriminate E.
Qed.

(** ** The theorems at the state [main.conf] leaves *)

Lemma cancel_clears_observer_slot_witness :
  idle booted 1%positive conf_holder
  ∧ ∃ c s1,
      OnChange 1%positive (Some (logger 1)) booted = Ret c s1
      ∧ idle s1 1%positive (set_callback (Some (logger 1)) conf_holder)
      ∧ ∀ s2 h2, idle s2 1%positive h2 →
          ∃ s3,
            c s2 = Ret tt s3
            ∧ s3 = with_holder s2 1%positive (set_callback None h2)
            ∧ idle s3 1%positive (set_callback None h2)
            ∧ c s3 = Ret tt s3
            ∧ ∀ v, ∃ s4,
                Update 1%positive v s3 = Ret None s4
                ∧ calls s4 = calls s2 ∧ world s4 = world s2.
Proof.
  split; [split; reflexivity|].
  apply (cancel_clears_observer_slot booted 1%positive conf_holder (logger 1)).
  split; reflexivity.
Defined.

Lemma single_observer_slot_witness :
  idle booted 1%positive conf_holder
  ∧ (∀ o : op log,
       ∃ s' h',
         final (exec main.Config 1%positive o booted) = Some s'
         ∧ idle s' 1%positive h'
         ∧ (length (calls s') ≤ S (length (calls booted)))%nat)
  ∧ ∃ c1 c2 s1 s2 s3,
      OnChange 1%positive (Some (logger 1)) booted = Ret c1 s1
      ∧ OnChange 1%positive (Some (logger 2)) s1 = Ret c2 s2
      ∧ idle s2 1%positive (set_callback (Some (logger 2)) conf_holder)
      ∧ Update 1%positive (VStruct [VString "updated secret"]) s2 = Ret None s3
      ∧ calls s3
        = calls booted ++ [(logger 2, VStruct [VString "updated secret"])]
      ∧ world s3
        = logger 2 (VStruct [VString "updated secret"]) (world booted)
      ∧ OnChange 1%positive (Some (logger 2)) booted = Ret c2 s2.
Proof.
  split; [split; reflexivity|].
  apply (single_observer_slot main.Config booted 1%positive conf_holder
           (logger 1) (logger 2) (VStruct [VString "updated secret"])).
  split; reflexivity.
Defined.

Lemma initialized_is_kept_witness :
  is_interface main.Config = false
  ∧ idle booted 1%positive conf_holder
  ∧ (∀ v w, v ≠ zero main.Config →
       ∃ s1 s2,
         Update 1%positive v booted = Ret None s1
         ∧ InitData main.Config 1%positive w s1 = Ret (Some 1%positive) s2
         ∧ s2 = s1
         ∧ Get 1%positive s2 = Ret v s2)
  ∧ (data conf_holder = zero main.Config → ∀ w, w ≠ zero main.Config →
       ∃ s1, InitData main.Config 1%positive w booted = Ret (Some 1%positive) s1
             ∧ idle s1 1%positive (set_data w conf_holder))
  ∧ (data conf_holder ≠ zero main.Config → ∀ os : list (op log),
       Forall (keeps_nonzero main.Config) os →
       ∃ s' h',
         run_ops main.Config 1%positive os booted = Ret tt s'
         ∧ idle s' 1%positive h' ∧ data h' ≠ zero main.Config).
Proof.
  split; [reflexivity|]. split; [split; reflexivity|].
  apply (initialized_is_kept main.Config booted 1%positive conf_holder).
  - reflexivity.
  - split; reflexivity.
Defined.

(** [main.conf], run from the empty state, makes the holder of [booted]. *)
Example conf_boots :
  main.conf boot = Ret (Some 1%positive) booted.
Proof. vm_compute. reflexivity. Qed.

(** The run of [main]: the holder is made with its initial value, read,
    updated without error, and read again. *)
Example main_scenario :
  (a ← main.conf;
   via a (λ m,
     before ← Get m;
     err ← Update m (VStruct [VString "updated secret"]);
     after ← Get m;
     mret (before, err, after))) boot
  = Ret (hello, None, VStruct [VString "updated secret"])
      (with_holder booted 1%positive
         (set_data (VStruct [VString "updated secret"]) conf_holder)).
Proof. vm_compute. reflexivity. Qed.

(** * Further properties of the code *)

(** ** [errorx] *)

(** X1. [captureStack] ends on every call stack and returns the frames from
    the third on, in their order: the innermost frame it keeps is the caller
    of the constructor; a stack of two frames or fewer gives the empty
    [Stack]. *)
Theorem captureStack_skips_two (frames : list errorx.Frame) :
  errorx.captureStack frames = drop 2 frames
  ∧ length (errorx.captureStack frames) = (length frames - 2)%nat
  ∧ (∀ i : nat, errorx.captureStack frames !! i = frames !! (2 + i)%nat)
  ∧ ((length frames ≤ 2)%nat → errorx.captureStack frames = []).
Proof.
  rewrite captureStack_drop. split; [reflexivity|].
  split; [apply length_drop|]. split; [intros i; apply lookup_drop|].
  intros Hlen. by apply drop_ge.
Qed.

(** X2. [New], [C] and [Cf] never return nil. Each builds an error with no
    cause (so [Unwrap()] and [Cause()] are nil), the empty type tag, the
    stack of its call site, and the message and code it was given; the
    message of [Cf] is what [fmt.Sprintf] renders. [C] with code 0 builds
    what [New] builds. *)
Theorem constructors_build_roots (Sprintf : string → list Value → string)
    (frames : list errorx.Frame) (code : Z) (msg format : string)
    (args : list Value) :
  (∃ e, errorx.New frames msg = Some e
        ∧ errorx.customError_Error e = msg
        ∧ errorx.customError_Code e = 0
        ∧ errorx.customError_Type e = ""%string
        ∧ errorx.customError_Cause e = None
        ∧ errorx.customError_Unwrap e = None
        ∧ errorx.customError_Stack e = drop 2 frames)
  ∧ (∃ e, errorx.C frames code msg = Some e
          ∧ errorx.customError_Error e = msg
          ∧ errorx.customError_Code e = code
          ∧ errorx.customError_Type e = ""%string
          ∧ errorx.customError_Cause e = None
          ∧ errorx.customError_Unwrap e = None
          ∧ errorx.customError_Stack e = drop 2 frames)
  ∧ (∃ e, errorx.Cf Sprintf frames code format args = Some e
          ∧ errorx.customError_Error e = Sprintf format args
          ∧ errorx.customError_Code e = code
          ∧ errorx.customError_Type e = ""%string
          ∧ errorx.customError_Cause e = None
          ∧ errorx.customError_Unwrap e = None
          ∧ errorx.customError_Stack e = drop 2 frames)
  ∧ errorx.C frames 0 msg = errorx.New frames msg.
Proof.
  repeat split; eexists; (split; [reflexivity|]);
    repeat split; apply captureStack_drop.
Qed.

Lemma Unwrap_rewrap frames (err : errorx.dynError) :
  Unwrap (rewrap frames (Some err)) = Some err.
Proof. reflexivity. Qed.

Lemma wraps_is_Some stacks (err : errorx.dynError) :
  ∃ e, wraps stacks (Some err) = Some e ∧ errorx.error_Error e = errorx.error_Error err.
Proof.
  induction stacks as [|fr stacks (e & E & Htext)]; [by exists err|].
  cbn [wraps foldr]. fold (wraps stacks (Some err)). rewrite E.
  eexists. split; [reflexivity|]. exact Htext.
Qed.

Lemma Unwrap_wraps stacks (err : errorx.dynError) (j : nat) :
  (j ≤ length stacks)%nat →
  Nat.iter j Unwrap (wraps stacks (Some err)) = wraps (drop j stacks) (Some err).
Proof.
  revert stacks. induction j as [|j IH]; intros stacks Hj; [reflexivity|].
  destruct stacks as [|fr stacks]; [cbn in Hj; lia|].
  rewrite Nat.iter_succ_r. cbn [wraps foldr drop]. fold (wraps stacks (Some err)).
  destruct (wraps_is_Some stacks err) as (e & E & _). rewrite E.
  rewrite Unwrap_rewrap, <- E. apply IH. cbn in Hj. lia.
Qed.

(** X3. Wrapping composes. A tower of [Wrap]s over a non-nil [err], each
    made at a call stack of its own, is non-nil and carries the text of
    [err]; unwrapping it [j] times gives the tower without its [j] outermost
    layers, and unwrapping it as often as it was wrapped gives [err] itself.
    A tower over nil is nil. *)
Theorem Wrap_tower_unwraps (stacks : list (list errorx.Frame))
    (err : errorx.dynError) :
  (∃ e, wraps stacks (Some err) = Some e
        ∧ errorx.error_Error e = errorx.error_Error err)
  ∧ (∀ j : nat, (j ≤ length stacks)%nat →
       Nat.iter j Unwrap (wraps stacks (Some err))
       = wraps (drop j stacks) (Some err))
  ∧ Nat.iter (length stacks) Unwrap (wraps stacks (Some err)) = Some err
  ∧ wraps stacks None = None.
Proof.
  split; [apply wraps_is_Some|]. split; [intros j; apply Unwrap_wraps|].
  split.
  - rewrite Unwrap_wraps by lia. by rewrite drop_all.
  - induction stacks as [|fr stacks IH]; [reflexivity|].
    cbn [wraps foldr]. fold (wraps stacks None). by rewrite IH.
Qed.

(** X4. Whatever the verb, [Format] on the error that [Wrap(err)] returns
    appends the text of [err] to the output and nothing else: neither the
    stack nor the code is printed, under [%+v] as under [%s]. *)
Theorem Format_of_Wrap_writes_cause_text (frames : list errorx.Frame)
    (err : errorx.dynError) (out : string) (c : Z) :
  ∃ e, errorx.Wrap frames (Some err) = Some e
       ∧ errorx.customError_Format e out c
         = (out ++ errorx.error_Error err)%string
       ∧ ∀ c' : Z,
           errorx.customError_Format e out c'
           = errorx.customError_Format e out c.
Proof. eexists. split; [reflexivity|]. split; [reflexivity|]. by intros c'. Qed.

(** ** [isZeroValue] *)

(** X5. At a type that is not an interface type, [isZeroValue] never
    panics, is true of the zero value of the type and false of every other
    value. *)
Theorem isZeroValue_true_iff_zero (T : GoType) :
  is_interface T = false →
  isZeroValue T (zero T) = Ok true
  ∧ ∀ v : Value, v ≠ zero T → isZeroValue T v = Ok false.
Proof.
  intros HT. split.
  - destruct (isZeroValue_concrete T (zero T) HT) as (z & -> & Hz).
    f_equal. by apply Hz.
  - intros v Hv. destruct (isZeroValue_concrete T v HT) as (z & -> & Hz).
    f_equal. destruct z; [|reflexivity]. destruct Hv. by apply Hz.
Qed.

(** X6. At the interface type, [isZeroValue] tests the value inside the
    interface against the zero value of its dynamic type [D]: a non-nil
    interface that holds the zero value of [D] is reported as zero, although
    it is not the zero value of the interface type, and the nil interface,
    which is, makes the function panic. *)
Theorem isZeroValue_tests_dynamic_type (D : GoType) (x : Value) :
  is_interface D = false →
  (∃ z, isZeroValue TInterface (VInterface (Some (D, x))) = Ok z
        ∧ (z = true ↔ x = zero D))
  ∧ isZeroValue TInterface (VInterface (Some (D, zero D))) = Ok true
  ∧ VInterface (Some (D, zero D)) ≠ zero TInterface
  ∧ isZeroValue TInterface (zero TInterface) = Panics "reflect: Zero(nil)".
Proof.
  intros HD.
  assert (Hany : ∀ y, to_any D y = Some (D, y))
    by (intros y; destruct D; try reflexivity; discriminate).
  assert (E : ∀ y, isZeroValue TInterface (VInterface (Some (D, y)))
                   = Ok (reflect.deepValueEqual y (zero D))).
  { intros y. rewrite isZeroValue_interface, Hany. cbn.
    by rewrite GoType_eqb_refl. }
  split; [|split; [|split]].
  - exists (reflect.deepValueEqual x (zero D)).
    split; [apply E | apply deepValueEqual_zero].
  - rewrite E. f_equal. by apply deepValueEqual_zero.
  - discriminate.
  - reflexivity.
Qed.

(** ** Construction *)

Section construction.
Context {W : Type}.
Implicit Types (s : Machine W) (m : positive) (h : localManager W).
Implicit Types (v w : Value).

Lemma with_holder_other s m h m' :
  m' ≠ m → heap (with_holder s m h) !! m' = heap s !! m'.
Proof. intros Hne. unfold with_holder. cbn [heap]. by rewrite lookup_insert_ne. Qed.

Lemma Local_run T s :
  Local T s
  = Ret (Some (fresh (dom (heap s))))
      (with_holder s (fresh (dom (heap s)))
         {| data := zero T; mu := sync.unlocked; callback := None |})
  ∧ heap s !! fresh (dom (heap s)) = None.
Proof.
  split; [reflexivity|]. apply not_elem_of_dom, is_fresh.
Qed.

(** X7. [Local] never fails. It returns a pointer that was not in use to a
    new holder, which holds the zero value of [T], has no observer and a
    free lock; a [Get] on it returns the zero value. The holders there were,
    and what the callbacks act on, are untouched. *)
Theorem Local_allocates T s :
  ∃ m s',
    Local T s = Ret (Some m) s'
    ∧ heap s !! m = None
    ∧ idle s' m {| data := zero T; mu := sync.unlocked; callback := None |}
    ∧ Get m s' = Ret (zero T) s'
    ∧ (∀ m', m' ≠ m → heap s' !! m' = heap s !! m')
    ∧ world s' = world s ∧ calls s' = calls s.
Proof.
  destruct (Local_run T s) as [E Hfresh].
  eexists _, _. split; [exact E|]. split; [exact Hfresh|].
  set (h0 := {| data := zero T; mu := sync.unlocked; callback := None |}).
  assert (H0 : idle (with_holder s (fresh (dom (heap s))) h0)
                 (fresh (dom (heap s))) h0)
    by by apply idle_with_holder.
  split; [exact H0|]. split; [by rewrite (Get_run _ _ _ H0)|].
  split; [intros m' Hne; by apply with_holder_other|]. by split.
Qed.

(** X8. The chain [Local[T]().Watch().InitData(v)], for a type that is not
    an interface type, returns a new holder that holds [v], whatever [v]
    is, with no observer and a free lock; it invokes nothing and touches no
    other holder. *)
Theorem make_builds_holder T v s :
  is_interface T = false →
  ∃ m s',
    make T v s = Ret (Some m) s'
    ∧ heap s !! m = None
    ∧ idle s' m {| data := v; mu := sync.unlocked; callback := None |}
    ∧ Get m s' = Ret v s'
    ∧ (∀ m', m' ≠ m → heap s' !! m' = heap s !! m')
    ∧ world s' = world s ∧ calls s' = calls s.
Proof.
  intros HT. destruct (Local_run T s) as [E Hfresh].
  set (m := fresh (dom (heap s))) in *.
  set (h0 := {| data := zero T; mu := sync.unlocked; callback := None |}) in *.
  assert (H0 : idle (with_holder s m h0) m h0) by by apply idle_with_holder.
  destruct (InitData_on_concrete_type T _ m h0 v HT H0) as [Hset _].
  specialize (Hset eq_refl). rewrite with_holder_twice in Hset.
  exists m, (with_holder s m (set_data v h0)).
  assert (H1 : idle (with_holder s m (set_data v h0)) m (set_data v h0))
    by by apply idle_with_holder.
  split.
  - unfold make. rewrite (bind_run _ _ _ _ _ E). cbn [via].
    by rewrite (bind_run (Watch m) _ _ (Some m) (with_holder s m h0) eq_refl).
  - split; [exact Hfresh|]. split; [exact H1|].
    split; [by rewrite (Get_run _ _ _ H1)|].
    split; [intros m' Hne; by apply with_holder_other|]. by split.
Qed.

(** X9. On a holder of a type that is not an interface type, [InitData(v)]
    is idempotent: a second [InitData(v)] returns the holder in the state
    the first one left. When [v] is not the zero value the first
    initialization wins: every later [InitData(w)] changes nothing. *)
Theorem InitData_idempotent T s m h v :
  is_interface T = false →
  idle s m h →
  ∃ s1,
    InitData T m v s = Ret (Some m) s1
    ∧ InitData T m v s1 = Ret (Some m) s1
    ∧ (v ≠ zero T → ∀ w, InitData T m w s1 = Ret (Some m) s1).
Proof.
  intros HT H.
  destruct (isZeroValue_concrete T (data h) HT) as (z & Hz & Hiff).
  rewrite (InitData_run T s m h v z H Hz). destruct z.
  - assert (H1 : idle (with_holder s m (set_data v h)) m (set_data v h))
      by (apply idle_with_holder, H).
    eexists. split; [reflexivity|].
    destruct (InitData_on_concrete_type T _ m _ v HT H1) as [Hset Hkeep].
    destruct (isZeroValue_concrete T v HT) as ([] & _ & Hv).
    + split.
      * rewrite Hset by by apply Hv. by rewrite with_holder_twice.
      * intros Hne. destruct Hne. by apply Hv.
    + assert (Hne : v ≠ zero T) by (intros Hv'; by apply Hv in Hv').
      split; [by apply Hkeep|]. intros _ w.
      by destruct (InitData_on_concrete_type T _ m _ w HT H1) as [_ ->].
  - assert (Hd : data h ≠ zero T) by (intros Hd; by apply Hiff in Hd).
    exists s. split; [reflexivity|].
    destruct (InitData_on_concrete_type T s m h v HT H) as [_ Hkeep].
    split; [by apply Hkeep|]. intros _ w.
    by destruct (InitData_on_concrete_type T s m h w HT H) as [_ ->].
Qed.
End construction.

(** ** Notification, isolation and locking *)

Section notification.
Context {W : Type}.
Implicit Types (s : Machine W) (m : positive) (h : localManager W).
Implicit Types (cb : Callback W) (v w : Value) (o : op W).


(** X10. Only [Update] notifies. Every other operation on an idle holder,
    [InitData] included, also where it panics, ends without a call of a
    callback and without a change to what the callbacks act on; [Get] and
    [Watch] change nothing at all. *)
Theorem only_Update_notifies T s m h o :
  idle s m h →
  is_update o = false →
  ∃ s',
    final (exec T m o s) = Some s'
    ∧ calls s' = calls s
    ∧ world s' = world s
    ∧ (o = OpGet ∨ o = OpWatch → s' = s).
Proof.
  intros H Ho. destruct o as [|v|cb| | |v]; cbn [exec]; try discriminate Ho.
  - rewrite (bind_run _ _ _ _ _ (Get_run s m h H)). by exists s.
  - rewrite (bind_run _ _ _ _ _ (OnChange_run s m h cb H)).
    eexists. split; [reflexivity|]. repeat split; try by intros [|].
  - rewrite (cancel_run s m h H).
    eexists. split; [reflexivity|]. repeat split; try by intros [|].
  - by exists s.
  - destruct (isZeroValue T (data h)) as [z|msg] eqn:Hz.
    + rewrite (bind_run _ _ _ _ _ (InitData_run T s m h v z H Hz)).
      destruct z; eexists; (split; [reflexivity|]); repeat split; try by intros [|].
    + rewrite (bind_run_panic _ _ _ _ _ (InitData_run_panic T s m h v msg H Hz)).
      exists s. repeat split; try by intros [|].
Qed.



(** X13. [OnChange(nil)] unregisters: it leaves the holder in the state the
    cancel handle leaves it in. With the slot empty, [Update(v)] still
    stores [v] and returns nil, and calls nothing. *)
Theorem OnChange_nil_unregisters s m h :
  idle s m h →
  ∃ c s1,
    OnChange m None s = Ret c s1
    ∧ cancel m s = Ret tt s1
    ∧ ∀ v, ∃ s2,
        Update m v s1 = Ret None s2
        ∧ Get m s2 = Ret v s2
        ∧ calls s2 = calls s ∧ world s2 = world s.
Proof.
  intros H. eexists _, _. split; [by apply OnChange_run|].
  split; [by apply cancel_run|]. intros v.
  pose proof (idle_with_holder s m (set_callback None h) (proj2 H)) as H1.
  eexists. split; [by apply Update_run|]. split; [|by split].
  rewrite (Get_run _ m (set_data v (set_callback None h)));
    [reflexivity | apply idle_with_holder, H].
Qed.

(** X14. [InitData] on a holder of the interface type. On the nil
    interface it panics, with the state as it was before the call: the
    deferred [Unlock] has run and nothing was stored. On a non-nil
    interface that holds the zero value of its dynamic type it stores its
    argument, and on any other non-nil interface it changes nothing. *)
Theorem InitData_at_interface s m h v :
  idle s m h →
  (data h = VInterface None →
     InitData TInterface m v s = Panic "reflect: Zero(nil)" s)
  ∧ (∀ D, is_interface D = false → data h = VInterface (Some (D, zero D)) →
       InitData TInterface m v s
       = Ret (Some m) (with_holder s m (set_data v h)))
  ∧ (∀ D x, is_interface D = false → x ≠ zero D →
       data h = VInterface (Some (D, x)) →
       InitData TInterface m v s = Ret (Some m) s).
Proof.
  intros H.
  assert (E : ∀ D y, is_interface D = false →
                isZeroValue TInterface (VInterface (Some (D, y)))
                = Ok (reflect.deepValueEqual y (zero D))).
  { intros D y HD. rewrite isZeroValue_interface.
    assert (to_any D (zero D) = Some (D, zero D)) as ->
      by (destruct D; try reflexivity; discriminate).
    cbn. by rewrite GoType_eqb_refl. }
  split; [|split].
  - intros Hd. apply (InitData_run_panic TInterface s m h v _ H).
    by rewrite Hd.
  - intros D HD Hd.
    rewrite (InitData_run TInterface s m h v true H); [reflexivity|].
    rewrite Hd, E by done. f_equal. by apply deepValueEqual_zero.
  - intros D x HD Hx Hd.
    rewrite (InitData_run TInterface s m h v false H); [reflexivity|].
    rewrite Hd, E by done. f_equal.
    destruct (reflect.deepValueEqual x (zero D)) eqn:Hz; [|reflexivity].
    destruct Hx. by apply deepValueEqual_zero.
Qed.
End notification.

Section locking.
Context {W : Type}.
Implicit Types (s : Machine W) (m : positive) (h : localManager W).


End locking.

(** ** [main.go] *)

(** X17. [Validate] accepts a secret exactly when it has 8 bytes or more.
    A shorter one gives an error with code 1001, the message rendered from
    ["invalid secret %s"] and the secret, no type tag and no cause. *)
Theorem Validate_boundary (Sprintf : string → list Value → string)
    (frames : list errorx.Frame) (secret : string) :
  (main.Validate Sprintf frames secret = None
   ↔ (8 ≤ String.length secret)%nat)
  ∧ ((String.length secret < 8)%nat →
       ∃ e, main.Validate Sprintf frames secret = Some e
            ∧ errorx.customError_Code e = main.ErrCodeSecretTooShort
            ∧ main.ErrCodeSecretTooShort = 1001
            ∧ errorx.customError_Error e
              = Sprintf "invalid secret %s"%string [VString secret]
            ∧ errorx.customError_Type e = ""%string
            ∧ errorx.customError_Cause e = None).
Proof.
  unfold main.Validate.
  destruct (Z.ltb_spec (Z.of_nat (String.length secret)) 8) as [Hlt|Hge].
  - split; [split; [discriminate | lia]|].
    intros _. eexists. by repeat split.
  - split; [split; [lia | reflexivity] | lia].
Qed.

(** ** The further properties at the states of the examples *)

Lemma isZeroValue_true_iff_zero_witness :
  is_interface main.Config = false
  ∧ isZeroValue main.Config (zero main.Config) = Ok true
  ∧ ∀ v : Value, v ≠ zero main.Config → isZeroValue main.Config v = Ok false.
Proof.
  split; [reflexivity|]. apply (isZeroValue_true_iff_zero main.Config).
  reflexivity.
Defined.

Lemma isZeroValue_tests_dynamic_type_witness :
  is_interface TInt = false
  ∧ (∃ z, isZeroValue TInterface (VInterface (Some (TInt, VInt 7))) = Ok z
          ∧ (z = true ↔ VInt 7 = zero TInt))
  ∧ isZeroValue TInterface (VInterface (Some (TInt, zero TInt))) = Ok true
  ∧ VInterface (Some (TInt, zero TInt)) ≠ zero TInterface
  ∧ isZeroValue TInterface (zero TInterface) = Panics "reflect: Zero(nil)".
Proof.
  split; [reflexivity|].
  apply (isZeroValue_tests_dynamic_type TInt (VInt 7)). reflexivity.
Defined.

Lemma make_builds_holder_witness :
  is_interface main.Config = false
  ∧ ∃ m s',
      make main.Config hello boot = Ret (Some m) s'
      ∧ heap boot !! m = None
      ∧ idle s' m {| data := hello; mu := sync.unlocked; callback := None |}
      ∧ Get m s' = Ret hello s'
      ∧ (∀ m', m' ≠ m → heap s' !! m' = heap boot !! m')
      ∧ world s' = world boot ∧ calls s' = calls boot.
Proof.
  split; [reflexivity|]. apply (make_builds_holder main.Config hello boot).
  reflexivity.
Defined.

Lemma InitData_idempotent_witness :
  is_interface main.Config = false
  ∧ idle booted 1%positive conf_holder
  ∧ ∃ s1,
      InitData main.Config 1%positive updated booted = Ret (Some 1%positive) s1
      ∧ InitData main.Config 1%positive updated s1 = Ret (Some 1%positive) s1
      ∧ (updated ≠ zero main.Config →
           ∀ w, InitData main.Config 1%positive w s1 = Ret (Some 1%positive) s1).
Proof.
  split; [reflexivity|]. split; [split; reflexivity|].
  apply (InitData_idempotent main.Config booted 1%positive conf_holder updated).
  - reflexivity.
  - split; reflexivity.
Defined.

Lemma only_Update_notifies_witness :
  idle booted 1%positive conf_holder
  ∧ is_update (OpInitData updated : op log) = false
  ∧ ∃ s',
      final (exec main.Config 1%positive (OpInitData updated) booted) = Some s'
      ∧ calls s' = calls booted
      ∧ world s' = world booted
      ∧ (OpInitData updated = (OpGet : op log)
         ∨ OpInitData updated = (OpWatch : op log) → s' = booted).
Proof.
  split; [split; reflexivity|]. split; [reflexivity|].
  apply (only_Update_notifies main.Config booted 1%positive conf_holder
           (OpInitData updated)).
  - split; reflexivity.
  - reflexivity.
Defined.



Lemma OnChange_nil_unregisters_witness :
  idle booted 1%positive conf_holder
  ∧ ∃ c s1,
      OnChange 1%positive None booted = Ret c s1
      ∧ cancel 1%positive booted = Ret tt s1
      ∧ ∀ v, ∃ s2,
          Update 1%positive v s1 = Ret None s2
          ∧ Get 1%positive s2 = Ret v s2
          ∧ calls s2 = calls booted ∧ world s2 = world booted.
Proof.
  split; [split; reflexivity|].
  apply (OnChange_nil_unregisters booted 1%positive conf_holder).
  split; reflexivity.
Defined.

Lemma InitData_at_interface_witness :
  idle booted_any 1%positive any_holder
  ∧ (data any_holder = VInterface None →
       InitData TInterface 1%positive (VInterface (Some (TInt, VInt 1)))
         booted_any
       = Panic "reflect: Zero(nil)" booted_any)
  ∧ (∀ D, is_interface D = false →
       data any_holder = VInterface (Some (D, zero D)) →
       InitData TInterface 1%positive (VInterface (Some (TInt, VInt 1)))
         booted_any
       = Ret (Some 1%positive)
           (with_holder booted_any 1%positive
              (set_data (VInterface (Some (TInt, VInt 1))) any_holder)))
  ∧ (∀ D x, is_interface D = false → x ≠ zero D →
       data any_holder = VInterface (Some (D, x)) →
       InitData TInterface 1%positive (VInterface (Some (TInt, VInt 1)))
         booted_any
       = Ret (Some 1%positive) booted_any).
Proof.
  split; [split; reflexivity|].
  apply (InitData_at_interface booted_any 1%positive any_holder
           (VInterface (Some (TInt, VInt 1)))).
  split; reflexivity.
Defined.

